(** * AccelScript: the AST node model and the tree builder

    A shallow embedding of [src/parser.hpp] (the AST node model) and of
    [src/parser.cpp] (the visitor that turns a concrete syntax tree into
    AST nodes), together with the properties the specification states
    about them. *)

From Stdlib Require Import String Ascii List Bool NArith ZArith Lia.
Import ListNotations.

Set Warnings "-register-all".
Open Scope string_scope.

(** ** Outcomes of the C++ code

    A call either returns a value, leaves by an exception, or has no
    defined behaviour (the visitor dereferences the pointers its accessors
    return without testing them). *)

Inductive BuildError : Type :=
| UnsupportedConstruct (kind : string).

Inductive outcome (A : Type) : Type :=
| Returns (a : A)
| Throws (e : BuildError)
| Undefined.

Arguments Returns {A} a.
Arguments Throws {A} e.
Arguments Undefined {A}.

Definition bind {A B : Type} (c : outcome A) (k : A -> outcome B) : outcome B :=
  match c with
  | Returns a => k a
  | Throws e => Throws e
  | Undefined => Undefined
  end.

Declare Scope outcome_scope.
Delimit Scope outcome_scope with outcome.
Notation "x <- c ;; k" := (bind c (fun x => k))
  (at level 61, c at next level, right associativity) : outcome_scope.
Open Scope outcome_scope.

(** [p->member] on a pointer that may be null. *)
Definition deref {A : Type} (p : option A) : outcome A :=
  match p with
  | Some a => Returns a
  | None => Undefined
  end.

(** ** The concrete syntax tree *)

Module Antlr.

(** Modelled from the spec: the token types of the grammar (the generated
    AccelScriptLexer is not in src/).  The visitor only ever asks for
    [Identifier]; every other token type is a number. *)
Inductive TokenType : Type :=
| T_Identifier
| T_Other (ttype : N).

Definition TokenType_eqb (a b : TokenType) : bool :=
  match a, b with
  | T_Identifier, T_Identifier => true
  | T_Other m, T_Other n => N.eqb m n
  | _, _ => false
  end.

(** Modelled from the spec: a token of the external lexer, with its text and
    the offsets of its first and last character in the source text
    (spec 6: start/stop token byte offsets). *)
Record Token : Type := mkToken {
  getType : TokenType;
  tokenText : string;
  getStartIndex : N;
  getStopIndex : N
}.

(** Modelled from the spec: the productions of the grammar (the generated
    AccelScriptParser is not in src/).  The named ones are those whose
    contexts or accessors [src/parser.cpp] mentions; [ruleName] is the
    production's textual kind. *)
Inductive RuleKind : Type :=
| RuleProgram
| RuleStructDeclaration
| RuleShaderDeclaration
| RuleShaderType
| RuleParameterList
| RuleParameter
| RuleTypeSpecifier
| RuleOther (kind : string).

Definition ruleName (k : RuleKind) : string :=
  match k with
  | RuleProgram => "program"
  | RuleStructDeclaration => "structDeclaration"
  | RuleShaderDeclaration => "shaderDeclaration"
  | RuleShaderType => "shaderType"
  | RuleParameterList => "parameterList"
  | RuleParameter => "parameter"
  | RuleTypeSpecifier => "typeSpecifier"
  | RuleOther kind => kind
  end.

Definition RuleKind_eqb (a b : RuleKind) : bool :=
  match a, b with
  | RuleProgram, RuleProgram => true
  | RuleStructDeclaration, RuleStructDeclaration => true
  | RuleShaderDeclaration, RuleShaderDeclaration => true
  | RuleShaderType, RuleShaderType => true
  | RuleParameterList, RuleParameterList => true
  | RuleParameter, RuleParameter => true
  | RuleTypeSpecifier, RuleTypeSpecifier => true
  | RuleOther x, RuleOther y => String.eqb x y
  | _, _ => false
  end.

(** Modelled from the spec: a node of the concrete syntax tree (spec 6: per
    production node its textual kind, child token and sub-production
    accessors, and start/stop tokens).  A node is a heap object: [addr] is
    its address, which no accessor reads.  [start] and [stop] are pointers
    to the first and last token of the production and may be null. *)
Inductive ParseTree : Type :=
| TerminalNode (addr : N) (symbol : Token)
| RuleContext (addr : N) (rule : RuleKind) (start stop : option Token)
              (children : list ParseTree).

(** Modelled from the spec: the children of a node, tokens and
    sub-productions, left to right. *)
Definition children (t : ParseTree) : list ParseTree :=
  match t with
  | TerminalNode _ _ => []
  | RuleContext _ _ _ _ cs => cs
  end.

(** Modelled from the spec: [getStart()] and [getStop()], the start and stop
    token of a production. *)
Definition getStart (ctx : ParseTree) : option Token :=
  match ctx with
  | TerminalNode _ _ => None
  | RuleContext _ _ s _ _ => s
  end.

Definition getStop (ctx : ParseTree) : option Token :=
  match ctx with
  | TerminalNode _ _ => None
  | RuleContext _ _ _ e _ => e
  end.

(** Modelled from the spec: [getText()], the literal text of a node.  A
    terminal gives its token's text, a production the texts of its children
    joined with nothing in between. *)
Fixpoint getText (t : ParseTree) : string :=
  match t with
  | TerminalNode _ symbol => tokenText symbol
  | RuleContext _ _ _ _ cs =>
      fold_right (fun c acc => getText c ++ acc) "" cs
  end.

Definition is_token (ttype : TokenType) (t : ParseTree) : bool :=
  match t with
  | TerminalNode _ symbol => TokenType_eqb (getType symbol) ttype
  | RuleContext _ _ _ _ _ => false
  end.

Definition is_rule (k : RuleKind) (t : ParseTree) : bool :=
  match t with
  | TerminalNode _ _ => false
  | RuleContext _ rule _ _ _ => RuleKind_eqb rule k
  end.

(** Modelled from the spec: the child token accessor [getToken(ttype, i)],
    the i-th terminal child of that token type, or null. *)
Definition getToken (ttype : TokenType) (i : nat) (ctx : ParseTree)
  : option ParseTree :=
  nth_error (filter (is_token ttype) (children ctx)) i.

(** Modelled from the spec: the sub-production accessor
    [getRuleContexts<T>()], the children that are T contexts, in order. *)
Definition getRuleContexts (k : RuleKind) (ctx : ParseTree) : list ParseTree :=
  filter (is_rule k) (children ctx).

(** Modelled from the spec: the sub-production accessor
    [getRuleContext<T>(i)], the i-th child that is a T context, or null. *)
Definition getRuleContext (k : RuleKind) (i : nat) (ctx : ParseTree)
  : option ParseTree :=
  nth_error (getRuleContexts k ctx) i.

(** Modelled from the spec: the accessors of the generated contexts that the
    visitor calls, each the first child of its kind, [parameter()] all the
    children of its kind. *)
Definition Identifier (ctx : ParseTree) : option ParseTree :=
  getToken T_Identifier 0 ctx.

Definition shaderType (ctx : ParseTree) : option ParseTree :=
  getRuleContext RuleShaderType 0 ctx.

Definition parameterList (ctx : ParseTree) : option ParseTree :=
  getRuleContext RuleParameterList 0 ctx.

Definition parameter (ctx : ParseTree) : list ParseTree :=
  getRuleContexts RuleParameter ctx.

Definition typeSpecifier (ctx : ParseTree) : option ParseTree :=
  getRuleContext RuleTypeSpecifier 0 ctx.

End Antlr.

Import Antlr.

(** ** The AST node model ([src/parser.hpp]) *)

(** [struct Node]: the fields every node has.  [end_] is the field [end]. *)
Record Node : Type := mkNode {
  type : string;
  start : N;
  end_ : N
}.

(** The unnamed [struct { std::string name; }] of [name], [id] and
    [returnType]. *)
Record Named : Type := mkNamed {
  name : string
}.

(** [ShaderDeclaration::Param]. *)
Record Param : Type := mkParam {
  param_name : string;
  param_type : string
}.

Set Implicit Arguments.

(** [struct StructDeclaration : Node] over the type [P] of its [body]
    pointer. *)
Record StructDeclarationOf (P : Type) : Type := mkStructDeclaration {
  struct_node : Node;
  struct_name : Named;
  struct_body : P
}.

(** [struct ShaderDeclaration : Node] over the type [P] of its [body]
    pointer. *)
Record ShaderDeclarationOf (P : Type) : Type := mkShaderDeclaration {
  shader_node : Node;
  shader_id : Named;
  shader_params : list Param;
  shader_returnType : Named;
  shader_body : P
}.

Unset Implicit Arguments.

(** An object of the [Node] hierarchy, tagged with its dynamic type. *)
Inductive Object : Type :=
| ObjNode (n : Node)
| ObjStruct (d : StructDeclarationOf (option Object))
| ObjShader (d : ShaderDeclarationOf (option Object)).

(** [std::unique_ptr<Node>]: null or an object of the hierarchy. *)
Definition NodePtr : Type := option Object.

Definition StructDeclaration : Type := StructDeclarationOf NodePtr.
Definition ShaderDeclaration : Type := ShaderDeclarationOf NodePtr.

(** The [Node] subobject seen through a [Node*]. *)
Definition node_of (o : Object) : Node :=
  match o with
  | ObjNode n => n
  | ObjStruct d => struct_node d
  | ObjShader d => shader_node d
  end.

(** [dynamic_cast<StructDeclaration*>(p)] and
    [dynamic_cast<ShaderDeclaration*>(p)] on a [Node*] (the tests narrow the
    result of [parse] this way): the object when its dynamic type is the
    target, null otherwise, null on a null pointer. *)
Definition dynamic_cast_StructDeclaration (p : NodePtr)
  : option StructDeclaration :=
  match p with
  | Some (ObjStruct d) => Some d
  | _ => None
  end.

Definition dynamic_cast_ShaderDeclaration (p : NodePtr)
  : option ShaderDeclaration :=
  match p with
  | Some (ObjShader d) => Some d
  | _ => None
  end.

(** The implicit conversions from a derived pointer to [Node*]. *)
Definition upcast_StructDeclaration (d : StructDeclaration) : Object :=
  ObjStruct d.

Definition upcast_ShaderDeclaration (d : ShaderDeclaration) : Object :=
  ObjShader d.

(** ** The tree builder ([src/parser.cpp]) *)

(** [std::make_unique<T>()] value-initialises: empty strings, zero offsets,
    an empty vector and null pointers. *)
Definition make_unique_StructDeclaration : StructDeclaration :=
  {| struct_node := {| type := ""; start := 0; end_ := 0 |};
     struct_name := {| name := "" |};
     struct_body := None |}.

Definition make_unique_ShaderDeclaration : ShaderDeclaration :=
  {| shader_node := {| type := ""; start := 0; end_ := 0 |};
     shader_id := {| name := "" |};
     shader_params := [];
     shader_returnType := {| name := "" |};
     shader_body := None |}.

(** Assignments to the fields of [Node]. *)
Definition set_type (s : string) (n : Node) : Node :=
  {| type := s; start := start n; end_ := end_ n |}.

Definition set_start (i : N) (n : Node) : Node :=
  {| type := type n; start := i; end_ := end_ n |}.

Definition set_end (i : N) (n : Node) : Node :=
  {| type := type n; start := start n; end_ := i |}.

Module StructDecl.

Definition with_node (f : Node -> Node) (d : StructDeclaration)
  : StructDeclaration :=
  {| struct_node := f (struct_node d);
     struct_name := struct_name d;
     struct_body := struct_body d |}.

Definition set_name (s : string) (d : StructDeclaration) : StructDeclaration :=
  {| struct_node := struct_node d;
     struct_name := {| name := s |};
     struct_body := struct_body d |}.

End StructDecl.

Module ShaderDecl.

Definition with_node (f : Node -> Node) (d : ShaderDeclaration)
  : ShaderDeclaration :=
  {| shader_node := f (shader_node d);
     shader_id := shader_id d;
     shader_params := shader_params d;
     shader_returnType := shader_returnType d;
     shader_body := shader_body d |}.

Definition set_id (s : string) (d : ShaderDeclaration) : ShaderDeclaration :=
  {| shader_node := shader_node d;
     shader_id := {| name := s |};
     shader_params := shader_params d;
     shader_returnType := shader_returnType d;
     shader_body := shader_body d |}.

(** [decl->params.push_back(p)]. *)
Definition push_back (p : Param) (d : ShaderDeclaration) : ShaderDeclaration :=
  {| shader_node := shader_node d;
     shader_id := shader_id d;
     shader_params := shader_params d ++ [p];
     shader_returnType := shader_returnType d;
     shader_body := shader_body d |}.

Definition set_returnType (s : string) (d : ShaderDeclaration)
  : ShaderDeclaration :=
  {| shader_node := shader_node d;
     shader_id := shader_id d;
     shader_params := shader_params d;
     shader_returnType := {| name := s |};
     shader_body := shader_body d |}.

End ShaderDecl.

(** [ASTVisitor::visitStructDeclaration]. *)
Definition visitStructDeclaration (ctx : ParseTree) : outcome NodePtr :=
  let decl := make_unique_StructDeclaration in
  let decl := StructDecl.with_node (set_type "StructDeclaration") decl in
  id <- deref (Identifier ctx) ;;
  let decl := StructDecl.set_name (getText id) decl in
  tok <- deref (getStart ctx) ;;
  let decl := StructDecl.with_node (set_start (getStartIndex tok)) decl in
  tok <- deref (getStop ctx) ;;
  let decl := StructDecl.with_node (set_end (getStopIndex tok)) decl in
  Returns (Some (upcast_StructDeclaration decl)).

(** The loop [for (auto param : params->parameter())] of
    [visitShaderDeclaration]. *)
Fixpoint push_parameters (ps : list ParseTree) (decl : ShaderDeclaration)
  : outcome ShaderDeclaration :=
  match ps with
  | [] => Returns decl
  | param :: rest =>
      id <- deref (Identifier param) ;;
      ty <- deref (typeSpecifier param) ;;
      push_parameters rest
        (ShaderDecl.push_back
           {| param_name := getText id; param_type := getText ty |} decl)
  end.

(** [ASTVisitor::visitShaderDeclaration]. *)
Definition visitShaderDeclaration (ctx : ParseTree) : outcome NodePtr :=
  let decl := make_unique_ShaderDeclaration in
  st <- deref (shaderType ctx) ;;
  let decl :=
    ShaderDecl.with_node (set_type (getText st ++ "ShaderDeclaration")) decl in
  id <- deref (Identifier ctx) ;;
  let decl := ShaderDecl.set_id (getText id) decl in
  decl <- match parameterList ctx with
          | Some params => push_parameters (parameter params) decl
          | None => Returns decl
          end ;;
  let decl :=
    match typeSpecifier ctx with
    | Some retType => ShaderDecl.set_returnType (getText retType) decl
    | None => decl
    end in
  tok <- deref (getStart ctx) ;;
  let decl := ShaderDecl.with_node (set_start (getStartIndex tok)) decl in
  tok <- deref (getStop ctx) ;;
  let decl := ShaderDecl.with_node (set_end (getStopIndex tok)) decl in
  Returns (Some (upcast_ShaderDeclaration decl)).

(** Modelled from the spec: the dispatch of the base visitor
    (AccelScriptBaseVisitor is not in src/; only the two methods that
    [ASTVisitor] overrides are).  Spec 4.2 and 7: the builder dispatches per
    production kind and returns a single AST root; a struct or shader
    declaration goes to its visit method; the program root hands over to the
    productions under it, one after the other, and the node built last is the
    root returned; a production that matches no known AST variant fails with
    [UnsupportedConstruct] carrying its textual kind, which aborts the build.
    Tokens are not productions and build nothing. *)
Fixpoint visit (tree : ParseTree) : outcome NodePtr :=
  match tree with
  | TerminalNode _ _ => Returns None
  | RuleContext _ RuleStructDeclaration _ _ _ => visitStructDeclaration tree
  | RuleContext _ RuleShaderDeclaration _ _ _ => visitShaderDeclaration tree
  | RuleContext _ RuleProgram _ _ cs =>
      fold_left
        (fun acc c =>
           result <- acc ;;
           match c with
           | TerminalNode _ _ => Returns result
           | RuleContext _ _ _ _ _ => visit c
           end)
        cs (Returns None)
  | RuleContext _ rule _ _ _ => Throws (UnsupportedConstruct (ruleName rule))
  end.

(** One step of the walk of [visit] over the productions under the program
    root. *)
Definition visit_next (acc : outcome NodePtr) (c : ParseTree)
  : outcome NodePtr :=
  result <- acc ;;
  match c with
  | TerminalNode _ _ => Returns result
  | RuleContext _ _ _ _ _ => visit c
  end.

Section Parse.

(** The external engine: the lexer, the token stream and
    [parser.program()]. *)
Variable program : string -> ParseTree.

(** [parse]. *)
Definition parse (code : string) : outcome NodePtr :=
  let tree := program code in
  visit tree.

End Parse.

(** ** What the grammar guarantees of a tree (spec 4.2 and 6) *)

Definition non_null {A : Type} (p : option A) : bool :=
  match p with
  | Some _ => true
  | None => false
  end.

(** A struct declaration has its identifier and its first and last token. *)
Definition struct_ctx_ok (ctx : ParseTree) : bool :=
  non_null (Identifier ctx) && non_null (getStart ctx) && non_null (getStop ctx).

(** A parameter is [identifier : typeText]. *)
Definition parameter_ok (param : ParseTree) : bool :=
  non_null (Identifier param) && non_null (typeSpecifier param).

(** A shader declaration has its stage keyword, its identifier, well-formed
    parameters if it has a parameter list, and its first and last token. *)
Definition shader_ctx_ok (ctx : ParseTree) : bool :=
  non_null (shaderType ctx) && non_null (Identifier ctx)
  && match parameterList ctx with
     | Some params => forallb parameter_ok (parameter params)
     | None => true
     end
  && non_null (getStart ctx) && non_null (getStop ctx).

(** The tokens under a node, left to right. *)
Fixpoint tokens (t : ParseTree) : list Token :=
  match t with
  | TerminalNode _ symbol => [symbol]
  | RuleContext _ _ _ _ cs => flat_map tokens cs
  end.

Definition Token_eqb (a b : Token) : bool :=
  TokenType_eqb (getType a) (getType b)
  && String.eqb (tokenText a) (tokenText b)
  && N.eqb (getStartIndex a) (getStartIndex b)
  && N.eqb (getStopIndex a) (getStopIndex b).

Definition is_token_ptr (p : option Token) (t : Token) : bool :=
  match p with
  | Some u => Token_eqb u t
  | None => false
  end.

(** A token covers at least one character of a source text of length [L]. *)
Definition token_in_source (L : N) (t : Token) : bool :=
  (getStartIndex t <=? getStopIndex t)%N && (getStopIndex t <? L)%N.

(** Tokens come one after the other in the source text. *)
Fixpoint tokens_in_order (ts : list Token) : bool :=
  match ts with
  | [] => true
  | t :: rest =>
      match rest with
      | [] => true
      | u :: _ => (getStopIndex t <? getStartIndex u)%N
      end && tokens_in_order rest
  end.

(** Every production that holds tokens starts at its first token and stops
    at its last one. *)
Fixpoint spans_ok (t : ParseTree) : bool :=
  match t with
  | TerminalNode _ _ => true
  | RuleContext _ _ s e cs =>
      match flat_map tokens cs with
      | [] => true
      | first :: rest =>
          is_token_ptr s first && is_token_ptr e (last rest first)
      end && forallb spans_ok cs
  end.

(** A valid parse tree over a source text of length [L]. *)
Definition valid_tree (L : N) (t : ParseTree) : bool :=
  forallb (token_in_source L) (tokens t)
  && tokens_in_order (tokens t)
  && spans_ok t.

(** ** Trees at other addresses *)

(** A tree allocated elsewhere: every address moved by [d]. *)
Fixpoint relocate (d : N) (t : ParseTree) : ParseTree :=
  match t with
  | TerminalNode a symbol => TerminalNode (a + d) symbol
  | RuleContext a rule s e cs =>
      RuleContext (a + d) rule s e (map (relocate d) cs)
  end.

(** ** The trees of the tests and of the scenarios of spec 8 *)

(** The source of the test ParseStructDeclaration (spec 8, scenario 1) and its
    concrete syntax tree. *)
Definition struct_Vertex_code : string :=
  "struct Vertex { position: vec3; color: vec3; }".

Definition struct_Vertex_decl : ParseTree :=
  RuleContext 4112 RuleStructDeclaration
    (Some (mkToken (T_Other 1) "struct" 0 5))
    (Some (mkToken (T_Other 3) "}" 45 45))
    [
    TerminalNode 4128 (mkToken (T_Other 1) "struct" 0 5);
    TerminalNode 4144 (mkToken T_Identifier "Vertex" 7 12);
    TerminalNode 4160 (mkToken (T_Other 2) "{" 14 14);
    RuleContext 4176 (RuleOther "structMember")
      (Some (mkToken T_Identifier "position" 16 23))
      (Some (mkToken (T_Other 5) ";" 30 30))
      [
      TerminalNode 4192 (mkToken T_Identifier "position" 16 23);
      TerminalNode 4208 (mkToken (T_Other 4) ":" 24 24);
      RuleContext 4224 RuleTypeSpecifier
        (Some (mkToken T_Identifier "vec3" 26 29))
        (Some (mkToken T_Identifier "vec3" 26 29))
        [
        TerminalNode 4240 (mkToken T_Identifier "vec3" 26 29) ];
      TerminalNode 4256 (mkToken (T_Other 5) ";" 30 30) ];
    RuleContext 4272 (RuleOther "structMember")
      (Some (mkToken T_Identifier "color" 32 36))
      (Some (mkToken (T_Other 5) ";" 43 43))
      [
      TerminalNode 4288 (mkToken T_Identifier "color" 32 36);
      TerminalNode 4304 (mkToken (T_Other 4) ":" 37 37);
      RuleContext 4320 RuleTypeSpecifier
        (Some (mkToken T_Identifier "vec3" 39 42))
        (Some (mkToken T_Identifier "vec3" 39 42))
        [
        TerminalNode 4336 (mkToken T_Identifier "vec3" 39 42) ];
      TerminalNode 4352 (mkToken (T_Other 5) ";" 43 43) ];
    TerminalNode 4368 (mkToken (T_Other 3) "}" 45 45) ].

Definition struct_Vertex_tree : ParseTree :=
  RuleContext 4096 RuleProgram
    (Some (mkToken (T_Other 1) "struct" 0 5))
    (Some (mkToken (T_Other 3) "}" 45 45))
    [struct_Vertex_decl].

(** The source of the test ParseComputeShader (spec 8, scenario 2), with a
    one-statement body, and its concrete syntax tree. *)
Definition compute_Add_code : string :=
  "compute Add(input1: Buffer<f32>, input2: Buffer<f32>, output: Buffer<f32>) { let id = gl_GlobalInvocationID.x; }".

Definition compute_Add_decl : ParseTree :=
  RuleContext 8208 RuleShaderDeclaration
    (Some (mkToken (T_Other 6) "compute" 0 6))
    (Some (mkToken (T_Other 3) "}" 111 111))
    [
    RuleContext 8224 RuleShaderType
      (Some (mkToken (T_Other 6) "compute" 0 6))
      (Some (mkToken (T_Other 6) "compute" 0 6))
      [
      TerminalNode 8240 (mkToken (T_Other 6) "compute" 0 6) ];
    TerminalNode 8256 (mkToken T_Identifier "Add" 8 10);
    TerminalNode 8272 (mkToken (T_Other 9) "(" 11 11);
    RuleContext 8288 RuleParameterList
      (Some (mkToken T_Identifier "input1" 12 17))
      (Some (mkToken (T_Other 14) ">" 72 72))
      [
      RuleContext 8304 RuleParameter
        (Some (mkToken T_Identifier "input1" 12 17))
        (Some (mkToken (T_Other 14) ">" 30 30))
        [
        TerminalNode 8320 (mkToken T_Identifier "input1" 12 17);
        TerminalNode 8336 (mkToken (T_Other 4) ":" 18 18);
        RuleContext 8352 RuleTypeSpecifier
          (Some (mkToken T_Identifier "Buffer" 20 25))
          (Some (mkToken (T_Other 14) ">" 30 30))
          [
          TerminalNode 8368 (mkToken T_Identifier "Buffer" 20 25);
          TerminalNode 8384 (mkToken (T_Other 13) "<" 26 26);
          RuleContext 8400 RuleTypeSpecifier
            (Some (mkToken T_Identifier "f32" 27 29))
            (Some (mkToken T_Identifier "f32" 27 29))
            [
            TerminalNode 8416 (mkToken T_Identifier "f32" 27 29) ];
          TerminalNode 8432 (mkToken (T_Other 14) ">" 30 30) ] ];
      TerminalNode 8448 (mkToken (T_Other 11) "," 31 31);
      RuleContext 8464 RuleParameter
        (Some (mkToken T_Identifier "input2" 33 38))
        (Some (mkToken (T_Other 14) ">" 51 51))
        [
        TerminalNode 8480 (mkToken T_Identifier "input2" 33 38);
        TerminalNode 8496 (mkToken (T_Other 4) ":" 39 39);
        RuleContext 8512 RuleTypeSpecifier
          (Some (mkToken T_Identifier "Buffer" 41 46))
          (Some (mkToken (T_Other 14) ">" 51 51))
          [
          TerminalNode 8528 (mkToken T_Identifier "Buffer" 41 46);
          TerminalNode 8544 (mkToken (T_Other 13) "<" 47 47);
          RuleContext 8560 RuleTypeSpecifier
            (Some (mkToken T_Identifier "f32" 48 50))
            (Some (mkToken T_Identifier "f32" 48 50))
            [
            TerminalNode 8576 (mkToken T_Identifier "f32" 48 50) ];
          TerminalNode 8592 (mkToken (T_Other 14) ">" 51 51) ] ];
      TerminalNode 8608 (mkToken (T_Other 11) "," 52 52);
      RuleContext 8624 RuleParameter
        (Some (mkToken T_Identifier "output" 54 59))
        (Some (mkToken (T_Other 14) ">" 72 72))
        [
        TerminalNode 8640 (mkToken T_Identifier "output" 54 59);
        TerminalNode 8656 (mkToken (T_Other 4) ":" 60 60);
        RuleContext 8672 RuleTypeSpecifier
          (Some (mkToken T_Identifier "Buffer" 62 67))
          (Some (mkToken (T_Other 14) ">" 72 72))
          [
          TerminalNode 8688 (mkToken T_Identifier "Buffer" 62 67);
          TerminalNode 8704 (mkToken (T_Other 13) "<" 68 68);
          RuleContext 8720 RuleTypeSpecifier
            (Some (mkToken T_Identifier "f32" 69 71))
            (Some (mkToken T_Identifier "f32" 69 71))
            [
            TerminalNode 8736 (mkToken T_Identifier "f32" 69 71) ];
          TerminalNode 8752 (mkToken (T_Other 14) ">" 72 72) ] ] ];
    TerminalNode 8768 (mkToken (T_Other 10) ")" 73 73);
    RuleContext 8784 (RuleOther "block")
      (Some (mkToken (T_Other 2) "{" 75 75))
      (Some (mkToken (T_Other 3) "}" 111 111))
      [
      TerminalNode 8800 (mkToken (T_Other 2) "{" 75 75);
      RuleContext 8816 (RuleOther "statement")
        (Some (mkToken (T_Other 15) "let" 77 79))
        (Some (mkToken (T_Other 5) ";" 109 109))
        [
        TerminalNode 8832 (mkToken (T_Other 15) "let" 77 79);
        TerminalNode 8848 (mkToken T_Identifier "id" 81 82);
        TerminalNode 8864 (mkToken (T_Other 16) "=" 84 84);
        RuleContext 8880 (RuleOther "expression")
          (Some (mkToken T_Identifier "gl_GlobalInvocationID" 86 106))
          (Some (mkToken T_Identifier "x" 108 108))
          [
          TerminalNode 8896 (mkToken T_Identifier "gl_GlobalInvocationID" 86 106);
          TerminalNode 8912 (mkToken (T_Other 17) "." 107 107);
          TerminalNode 8928 (mkToken T_Identifier "x" 108 108) ];
        TerminalNode 8944 (mkToken (T_Other 5) ";" 109 109) ];
      TerminalNode 8960 (mkToken (T_Other 3) "}" 111 111) ] ].

Definition compute_Add_tree : ParseTree :=
  RuleContext 8192 RuleProgram
    (Some (mkToken (T_Other 6) "compute" 0 6))
    (Some (mkToken (T_Other 3) "}" 111 111))
    [compute_Add_decl].

(** The source of the test ParseVertexShaderWithReturnType (spec 8, scenario 3),
    with a two-statement body, and its concrete syntax tree. *)
Definition vertex_SimpleVertex_code : string :=
  "vertex SimpleVertex(vertex: Vertex, uniforms: Uniforms) -> VertexOutput { var output: VertexOutput; return output; }".

Definition vertex_SimpleVertex_decl : ParseTree :=
  RuleContext 12304 RuleShaderDeclaration
    (Some (mkToken (T_Other 7) "vertex" 0 5))
    (Some (mkToken (T_Other 3) "}" 115 115))
    [
    RuleContext 12320 RuleShaderType
      (Some (mkToken (T_Other 7) "vertex" 0 5))
      (Some (mkToken (T_Other 7) "vertex" 0 5))
      [
      TerminalNode 12336 (mkToken (T_Other 7) "vertex" 0 5) ];
    TerminalNode 12352 (mkToken T_Identifier "SimpleVertex" 7 18);
    TerminalNode 12368 (mkToken (T_Other 9) "(" 19 19);
    RuleContext 12384 RuleParameterList
      (Some (mkToken T_Identifier "vertex" 20 25))
      (Some (mkToken T_Identifier "Uniforms" 46 53))
      [
      RuleContext 12400 RuleParameter
        (Some (mkToken T_Identifier "vertex" 20 25))
        (Some (mkToken T_Identifier "Vertex" 28 33))
        [
        TerminalNode 12416 (mkToken T_Identifier "vertex" 20 25);
        TerminalNode 12432 (mkToken (T_Other 4) ":" 26 26);
        RuleContext 12448 RuleTypeSpecifier
          (Some (mkToken T_Identifier "Vertex" 28 33))
          (Some (mkToken T_Identifier "Vertex" 28 33))
          [
          TerminalNode 12464 (mkToken T_Identifier "Vertex" 28 33) ] ];
      TerminalNode 12480 (mkToken (T_Other 11) "," 34 34);
      RuleContext 12496 RuleParameter
        (Some (mkToken T_Identifier "uniforms" 36 43))
        (Some (mkToken T_Identifier "Uniforms" 46 53))
        [
        TerminalNode 12512 (mkToken T_Identifier "uniforms" 36 43);
        TerminalNode 12528 (mkToken (T_Other 4) ":" 44 44);
        RuleContext 12544 RuleTypeSpecifier
          (Some (mkToken T_Identifier "Uniforms" 46 53))
          (Some (mkToken T_Identifier "Uniforms" 46 53))
          [
          TerminalNode 12560 (mkToken T_Identifier "Uniforms" 46 53) ] ] ];
    TerminalNode 12576 (mkToken (T_Other 10) ")" 54 54);
    TerminalNode 12592 (mkToken (T_Other 12) "->" 56 57);
    RuleContext 12608 RuleTypeSpecifier
      (Some (mkToken T_Identifier "VertexOutput" 59 70))
      (Some (mkToken T_Identifier "VertexOutput" 59 70))
      [
      TerminalNode 12624 (mkToken T_Identifier "VertexOutput" 59 70) ];
    RuleContext 12640 (RuleOther "block")
      (Some (mkToken (T_Other 2) "{" 72 72))
      (Some (mkToken (T_Other 3) "}" 115 115))
      [
      TerminalNode 12656 (mkToken (T_Other 2) "{" 72 72);
      RuleContext 12672 (RuleOther "statement")
        (Some (mkToken (T_Other 18) "var" 74 76))
        (Some (mkToken (T_Other 5) ";" 98 98))
        [
        TerminalNode 12688 (mkToken (T_Other 18) "var" 74 76);
        TerminalNode 12704 (mkToken T_Identifier "output" 78 83);
        TerminalNode 12720 (mkToken (T_Other 4) ":" 84 84);
        RuleContext 12736 RuleTypeSpecifier
          (Some (mkToken T_Identifier "VertexOutput" 86 97))
          (Some (mkToken T_Identifier "VertexOutput" 86 97))
          [
          TerminalNode 12752 (mkToken T_Identifier "VertexOutput" 86 97) ];
        TerminalNode 12768 (mkToken (T_Other 5) ";" 98 98) ];
      RuleContext 12784 (RuleOther "statement")
        (Some (mkToken (T_Other 19) "return" 100 105))
        (Some (mkToken (T_Other 5) ";" 113 113))
        [
        TerminalNode 12800 (mkToken (T_Other 19) "return" 100 105);
        RuleContext 12816 (RuleOther "expression")
          (Some (mkToken T_Identifier "output" 107 112))
          (Some (mkToken T_Identifier "output" 107 112))
          [
          TerminalNode 12832 (mkToken T_Identifier "output" 107 112) ];
        TerminalNode 12848 (mkToken (T_Other 5) ";" 113 113) ];
      TerminalNode 12864 (mkToken (T_Other 3) "}" 115 115) ] ].

Definition vertex_SimpleVertex_tree : ParseTree :=
  RuleContext 12288 RuleProgram
    (Some (mkToken (T_Other 7) "vertex" 0 5))
    (Some (mkToken (T_Other 3) "}" 115 115))
    [vertex_SimpleVertex_decl].

(** A shader with no parameter list and no return annotation (spec 8,
    scenario 4) and its concrete syntax tree. *)
Definition fragment_Main_code : string :=
  "fragment Main() { }".

Definition fragment_Main_decl : ParseTree :=
  RuleContext 16400 RuleShaderDeclaration
    (Some (mkToken (T_Other 8) "fragment" 0 7))
    (Some (mkToken (T_Other 3) "}" 18 18))
    [
    RuleContext 16416 RuleShaderType
      (Some (mkToken (T_Other 8) "fragment" 0 7))
      (Some (mkToken (T_Other 8) "fragment" 0 7))
      [
      TerminalNode 16432 (mkToken (T_Other 8) "fragment" 0 7) ];
    TerminalNode 16448 (mkToken T_Identifier "Main" 9 12);
    TerminalNode 16464 (mkToken (T_Other 9) "(" 13 13);
    TerminalNode 16480 (mkToken (T_Other 10) ")" 14 14);
    RuleContext 16496 (RuleOther "block")
      (Some (mkToken (T_Other 2) "{" 16 16))
      (Some (mkToken (T_Other 3) "}" 18 18))
      [
      TerminalNode 16512 (mkToken (T_Other 2) "{" 16 16);
      TerminalNode 16528 (mkToken (T_Other 3) "}" 18 18) ] ].

Definition fragment_Main_tree : ParseTree :=
  RuleContext 16384 RuleProgram
    (Some (mkToken (T_Other 8) "fragment" 0 7))
    (Some (mkToken (T_Other 3) "}" 18 18))
    [fragment_Main_decl].

(** A top-level construct of a kind the builder does not know (spec 8,
    scenario 5) and its concrete syntax tree. *)
Definition import_std_code : string :=
  "import std;".

Definition import_std_decl : ParseTree :=
  RuleContext 20496 (RuleOther "importDeclaration")
    (Some (mkToken (T_Other 20) "import" 0 5))
    (Some (mkToken (T_Other 5) ";" 10 10))
    [
    TerminalNode 20512 (mkToken (T_Other 20) "import" 0 5);
    TerminalNode 20528 (mkToken T_Identifier "std" 7 9);
    TerminalNode 20544 (mkToken (T_Other 5) ";" 10 10) ].

Definition import_std_tree : ParseTree :=
  RuleContext 20480 RuleProgram
    (Some (mkToken (T_Other 20) "import" 0 5))
    (Some (mkToken (T_Other 5) ";" 10 10))
    [import_std_decl].

(** A shader declaration whose return annotation holds no token, so that
    its text is empty: [fragment_Main_decl] with an empty [typeSpecifier]
    production after the parentheses. *)
Definition fragment_Main_empty_annotation : ParseTree :=
  match fragment_Main_decl with
  | RuleContext a rule s e cs =>
      RuleContext a rule s e
        (firstn 4 cs ++ [RuleContext 17000 RuleTypeSpecifier None None []]
           ++ skipn 4 cs)
  | t => t
  end.

(** A stage keyword written with a capital letter. *)
Definition Compute_K_decl : ParseTree :=
  RuleContext 24592 RuleShaderDeclaration
    (Some (mkToken (T_Other 6) "Compute" 0 6))
    (Some (mkToken (T_Other 3) "}" 13 13))
    [ RuleContext 24608 RuleShaderType
        (Some (mkToken (T_Other 6) "Compute" 0 6))
        (Some (mkToken (T_Other 6) "Compute" 0 6))
        [ TerminalNode 24624 (mkToken (T_Other 6) "Compute" 0 6) ];
      TerminalNode 24640 (mkToken T_Identifier "K" 8 8);
      TerminalNode 24656 (mkToken (T_Other 9) "(" 9 9);
      TerminalNode 24672 (mkToken (T_Other 10) ")" 10 10);
      TerminalNode 24688 (mkToken (T_Other 2) "{" 12 12);
      TerminalNode 24704 (mkToken (T_Other 3) "}" 13 13) ].

(** ** Properties used to state the claims *)

(** The pair built from one parameter: its identifier's text and the text of
    its type annotation. *)
Definition param_of (param : ParseTree) (p : Param) : Prop :=
  exists id ty,
    Identifier param = Some id /\
    typeSpecifier param = Some ty /\
    p = {| param_name := getText id; param_type := getText ty |}.

(** The parameters a shader declaration context holds, as the visitor walks
    them. *)
Definition parameters_of (ctx : ParseTree) : list ParseTree :=
  match parameterList ctx with
  | Some params => parameter params
  | None => []
  end.

(** The return type as the specification words it: the annotation's text
    when there is one, and otherwise a state of the field that differs from
    the field holding the empty string. *)
Definition returnType_as_specified (ctx : ParseTree) (d : ShaderDeclaration)
  : Prop :=
  match typeSpecifier ctx with
  | Some retType => name (shader_returnType d) = getText retType
  | None => shader_returnType d <> {| name := "" |}
  end.

(** The productions the dispatch knows: the program root and the two
    declaration variants. *)
Definition dispatched (k : RuleKind) : bool :=
  match k with
  | RuleProgram | RuleStructDeclaration | RuleShaderDeclaration => true
  | _ => false
  end.

Definition rule_of (t : ParseTree) : option RuleKind :=
  match t with
  | TerminalNode _ _ => None
  | RuleContext _ rule _ _ _ => Some rule
  end.

(** The byte-offset span of a node lies within a source text of length [L]. *)
Definition span_within (L : N) (n : Node) : Prop :=
  (0 <= Z.of_N (start n) <= Z.of_N (end_ n))%Z /\
  (Z.of_N (end_ n) <= Z.of_N L - 1)%Z.

(** ** Further notions used to state properties of the visitor *)

(** The children of a shader declaration that [visitShaderDeclaration]
    reaches through an accessor: the stage keyword, identifier tokens, the
    parameter list and type annotations. *)
Definition shader_header_child (c : ParseTree) : bool :=
  is_rule RuleShaderType c || is_token T_Identifier c
  || is_rule RuleParameterList c || is_rule RuleTypeSpecifier c.

(** The context with nothing under it but the children the visitor
    reaches. *)
Definition header_only (ctx : ParseTree) : ParseTree :=
  match ctx with
  | TerminalNode _ _ => ctx
  | RuleContext a rule s e cs =>
      RuleContext a rule s e (filter shader_header_child cs)
  end.

(** The texts of tokens joined with nothing in between. *)
Definition join_texts (ts : list Token) : string :=
  fold_right (fun t acc => tokenText t ++ acc) "" ts.

(** A node's span encloses a token. *)
Definition encloses (n : Node) (t : Token) : Prop :=
  (start n <= getStartIndex t)%N /\ (getStopIndex t <= end_ n)%N.

(** No child in the list is an identifier token. *)
Definition no_identifier (cs : list ParseTree) : bool :=
  forallb (fun c => negb (is_token T_Identifier c)) cs.

(** ** The tests of [test/parser_test.cpp] *)

Example ParseStructDeclaration :
  exists ast structDecl,
    visit struct_Vertex_tree = Returns ast /\
    dynamic_cast_StructDeclaration ast = Some structDecl /\
    type (struct_node structDecl) = "StructDeclaration" /\
    name (struct_name structDecl) = "Vertex".
Proof. do 2 eexists. repeat split; reflexivity. Qed.

Example ParseComputeShader :
  exists ast shaderDecl,
    visit compute_Add_tree = Returns ast /\
    dynamic_cast_ShaderDeclaration ast = Some shaderDecl /\
    type (shader_node shaderDecl) = "computeShaderDeclaration" /\
    name (shader_id shaderDecl) = "Add" /\
    length (shader_params shaderDecl) = 3 /\
    nth_error (shader_params shaderDecl) 2
    = Some {| param_name := "output"; param_type := "Buffer<f32>" |}.
Proof. do 2 eexists. repeat split; reflexivity. Qed.

Example ParseVertexShaderWithReturnType :
  exists ast shaderDecl,
    visit vertex_SimpleVertex_tree = Returns ast /\
    dynamic_cast_ShaderDeclaration ast = Some shaderDecl /\
    type (shader_node shaderDecl) = "vertexShaderDeclaration" /\
    name (shader_id shaderDecl) = "SimpleVertex" /\
    name (shader_returnType shaderDecl) = "VertexOutput" /\
    length (shader_params shaderDecl) = 2.
Proof. do 2 eexists. repeat split; reflexivity. Qed.

Example stage_keyword_case :
  exists ast shaderDecl,
    visitShaderDeclaration Compute_K_decl = Returns ast /\
    dynamic_cast_ShaderDeclaration ast = Some shaderDecl /\
    type (shader_node shaderDecl) = "ComputeShaderDeclaration".
Proof. do 2 eexists. repeat split; reflexivity. Qed.

Example wrong_cast_is_null :
  exists ast,
    visit struct_Vertex_tree = Returns ast /\
    dynamic_cast_ShaderDeclaration ast = None.
Proof. eexists. split; reflexivity. Qed.

(** ** What the two visit methods return *)

Lemma visitStructDeclaration_returns (ctx : ParseTree) :
  struct_ctx_ok ctx = true ->
  exists id s e,
    Identifier ctx = Some id /\ getStart ctx = Some s /\ getStop ctx = Some e /\
    visitStructDeclaration ctx
    = Returns (Some (ObjStruct
        {| struct_node := {| type := "StructDeclaration";
                             start := getStartIndex s;
                             end_ := getStopIndex e |};
           struct_name := {| name := getText id |};
           struct_body := None |})).
Proof.
  unfold struct_ctx_ok, visitStructDeclaration.
  destruct (Identifier ctx) as [id|]; [|discriminate].
  destruct (getStart ctx) as [s|]; [|discriminate].
  destruct (getStop ctx) as [e|]; [|discriminate].
  intros _. exists id, s, e. repeat split.
Qed.

Lemma visitStructDeclaration_defined (ctx : ParseTree) (p : NodePtr) :
  visitStructDeclaration ctx = Returns p -> struct_ctx_ok ctx = true.
Proof.
  unfold struct_ctx_ok, visitStructDeclaration.
  destruct (Identifier ctx); [|discriminate].
  destruct (getStart ctx); [|discriminate].
  destruct (getStop ctx); [|discriminate].
  reflexivity.
Qed.

Lemma push_parameters_returns (ps : list ParseTree) :
  forallb parameter_ok ps = true ->
  exists l,
    Forall2 param_of ps l /\
    forall decl,
      push_parameters ps decl
      = Returns {| shader_node := shader_node decl;
                   shader_id := shader_id decl;
                   shader_params := shader_params decl ++ l;
                   shader_returnType := shader_returnType decl;
                   shader_body := shader_body decl |}.
Proof.
  induction ps as [|param rest IH]; simpl; intros Hok.
  - exists []. split; [constructor|].
    intros [n i ps r b]; simpl. now rewrite app_nil_r.
  - apply andb_prop in Hok as [Hp Hrest].
    destruct (IH Hrest) as (l & Hl & Hpush).
    unfold parameter_ok in Hp.
    destruct (Identifier param) as [id|] eqn:Hid; [|discriminate].
    destruct (typeSpecifier param) as [ty|] eqn:Hty; [|discriminate].
    exists ({| param_name := getText id; param_type := getText ty |} :: l).
    split.
    + constructor; [|exact Hl]. exists id, ty. auto.
    + intros decl. simpl. rewrite Hpush. simpl.
      now rewrite <- app_assoc.
Qed.

Lemma push_parameters_defined (ps : list ParseTree) :
  forall decl decl',
    push_parameters ps decl = Returns decl' ->
    forallb parameter_ok ps = true.
Proof.
  induction ps as [|param rest IH]; simpl; intros decl decl' H; [reflexivity|].
  unfold parameter_ok.
  destruct (Identifier param); [|discriminate].
  destruct (typeSpecifier param); [|discriminate].
  simpl in *. eauto.
Qed.

Lemma visitShaderDeclaration_returns (ctx : ParseTree) :
  shader_ctx_ok ctx = true ->
  exists st id l s e,
    shaderType ctx = Some st /\ Identifier ctx = Some id /\
    Forall2 param_of (parameters_of ctx) l /\
    getStart ctx = Some s /\ getStop ctx = Some e /\
    visitShaderDeclaration ctx
    = Returns (Some (ObjShader
        {| shader_node := {| type := getText st ++ "ShaderDeclaration";
                             start := getStartIndex s;
                             end_ := getStopIndex e |};
           shader_id := {| name := getText id |};
           shader_params := l;
           shader_returnType :=
             {| name := match typeSpecifier ctx with
                        | Some retType => getText retType
                        | None => ""
                        end |};
           shader_body := None |})).
Proof.
  unfold shader_ctx_ok, visitShaderDeclaration, parameters_of.
  destruct (shaderType ctx) as [st|]; [|discriminate].
  destruct (Identifier ctx) as [id|]; [|discriminate].
  simpl. intros Hok.
  apply andb_prop in Hok as [Hok He].
  apply andb_prop in Hok as [Hps Hs].
  destruct (getStart ctx) as [s|]; [|discriminate].
  destruct (getStop ctx) as [e|]; [|discriminate].
  destruct (parameterList ctx) as [params|].
  - destruct (push_parameters_returns _ Hps) as (l & Hl & Hpush).
    exists st, id, l, s, e. repeat split; auto.
    rewrite Hpush. simpl.
    destruct (typeSpecifier ctx); reflexivity.
  - exists st, id, [], s, e. repeat split; auto.
    simpl. destruct (typeSpecifier ctx); reflexivity.
Qed.

Lemma visitShaderDeclaration_defined (ctx : ParseTree) (p : NodePtr) :
  visitShaderDeclaration ctx = Returns p -> shader_ctx_ok ctx = true.
Proof.
  unfold shader_ctx_ok, visitShaderDeclaration.
  destruct (shaderType ctx); [|discriminate].
  destruct (Identifier ctx); [|discriminate].
  simpl.
  destruct (parameterList ctx) as [params|].
  - destruct (push_parameters (parameter params) _) as [decl| |] eqn:Hpush;
      [|discriminate|discriminate].
    apply push_parameters_defined in Hpush. rewrite Hpush. simpl.
    destruct (getStart ctx); [|discriminate].
    destruct (getStop ctx); [|discriminate].
    reflexivity.
  - simpl.
    destruct (getStart ctx); [|discriminate].
    destruct (getStop ctx); [|discriminate].
    reflexivity.
Qed.

(** ** Struct declarations *)

(** C5: a struct declaration context with its identifier and its first and
    last token is built into a [StructDeclaration] node whose [type] is
    "StructDeclaration" and whose [name.name] is the literal text of the
    declared identifier; narrowing the returned pointer to
    [StructDeclaration] gives that node. *)
Theorem struct_declaration_kind_and_name (ctx : ParseTree) :
  struct_ctx_ok ctx = true ->
  exists id ast structDecl,
    Identifier ctx = Some id /\
    visitStructDeclaration ctx = Returns ast /\
    dynamic_cast_StructDeclaration ast = Some structDecl /\
    type (struct_node structDecl) = "StructDeclaration" /\
    name (struct_name structDecl) = getText id.
Proof.
  intros Hok.
  destruct (visitStructDeclaration_returns ctx Hok)
    as (id & s & e & Hid & _ & _ & Hv).
  exists id. rewrite Hv. do 2 eexists.
  split; [exact Hid|]. split; [reflexivity|]. split; [reflexivity|].
  split; reflexivity.
Qed.

Lemma struct_declaration_kind_and_name_witness :
  exists id ast structDecl,
    Identifier struct_Vertex_decl = Some id /\
    visitStructDeclaration struct_Vertex_decl = Returns ast /\
    dynamic_cast_StructDeclaration ast = Some structDecl /\
    type (struct_node structDecl) = "StructDeclaration" /\
    name (struct_name structDecl) = getText id.
Proof.
  apply (struct_declaration_kind_and_name struct_Vertex_decl).
  reflexivity.
Defined.

(** ** Shader declarations *)

(** C3: the [type] of the node built from a shader declaration is the text
    of its stage keyword, as the tokens hold it, followed at once by
    "ShaderDeclaration". *)
Theorem shader_declaration_kind (ctx : ParseTree) :
  shader_ctx_ok ctx = true ->
  exists st ast shaderDecl,
    shaderType ctx = Some st /\
    visitShaderDeclaration ctx = Returns ast /\
    dynamic_cast_ShaderDeclaration ast = Some shaderDecl /\
    type (shader_node shaderDecl) = getText st ++ "ShaderDeclaration".
Proof.
  intros Hok.
  destruct (visitShaderDeclaration_returns ctx Hok)
    as (st & id & l & s & e & Hst & _ & _ & _ & _ & Hv).
  exists st. rewrite Hv. do 2 eexists.
  split; [exact Hst|]. split; [reflexivity|]. split; reflexivity.
Qed.

Lemma shader_declaration_kind_witness :
  exists st ast shaderDecl,
    shaderType Compute_K_decl = Some st /\
    visitShaderDeclaration Compute_K_decl = Returns ast /\
    dynamic_cast_ShaderDeclaration ast = Some shaderDecl /\
    type (shader_node shaderDecl) = getText st ++ "ShaderDeclaration".
Proof.
  apply (shader_declaration_kind Compute_K_decl).
  reflexivity.
Defined.

(** C4: with a parameter list, [params] holds one pair per parameter of the
    list, in the order of the list, each made of the text of the parameter's
    identifier and the text of its type annotation; without a parameter
    list, [params] is the empty vector. *)
Theorem shader_declaration_params (ctx : ParseTree) :
  shader_ctx_ok ctx = true ->
  exists shaderDecl,
    visitShaderDeclaration ctx = Returns (Some (ObjShader shaderDecl)) /\
    match parameterList ctx with
    | Some params => Forall2 param_of (parameter params) (shader_params shaderDecl)
    | None => shader_params shaderDecl = []
    end.
Proof.
  intros Hok.
  destruct (visitShaderDeclaration_returns ctx Hok)
    as (st & id & l & s & e & _ & _ & Hl & _ & _ & Hv).
  rewrite Hv. eexists. split; [reflexivity|]. simpl.
  unfold parameters_of in Hl.
  destruct (parameterList ctx); [exact Hl|].
  now inversion Hl.
Qed.

Lemma shader_declaration_params_witness :
  exists shaderDecl,
    visitShaderDeclaration compute_Add_decl
    = Returns (Some (ObjShader shaderDecl)) /\
    match parameterList compute_Add_decl with
    | Some params => Forall2 param_of (parameter params) (shader_params shaderDecl)
    | None => shader_params shaderDecl = []
    end.
Proof.
  apply (shader_declaration_params compute_Add_decl).
  reflexivity.
Defined.

(** C1, as the specification words it, fails: the shader of scenario 4 has
    no return annotation, and the [returnType] of its node is the field
    holding the empty string. *)
Lemma returnType_absent_counterexample :
  exists shaderDecl,
    typeSpecifier fragment_Main_decl = None /\
    visitShaderDeclaration fragment_Main_decl
    = Returns (Some (ObjShader shaderDecl)) /\
    ~ returnType_as_specified fragment_Main_decl shaderDecl.
Proof.
  eexists. split; [reflexivity|]. split; [reflexivity|].
  unfold returnType_as_specified.
  change (typeSpecifier fragment_Main_decl) with (@None ParseTree).
  intros H. apply H. reflexivity.
Qed.

(** C1, amended: [returnType.name] is the literal text of the return
    annotation when the declaration has one, and the empty string when it
    has none. *)
Theorem shader_declaration_returnType (ctx : ParseTree) :
  shader_ctx_ok ctx = true ->
  exists shaderDecl,
    visitShaderDeclaration ctx = Returns (Some (ObjShader shaderDecl)) /\
    name (shader_returnType shaderDecl)
    = match typeSpecifier ctx with
      | Some retType => getText retType
      | None => ""
      end.
Proof.
  intros Hok.
  destruct (visitShaderDeclaration_returns ctx Hok)
    as (st & id & l & s & e & _ & _ & _ & _ & _ & Hv).
  rewrite Hv. eexists. split; reflexivity.
Qed.

Lemma shader_declaration_returnType_witness :
  exists shaderDecl,
    visitShaderDeclaration vertex_SimpleVertex_decl
    = Returns (Some (ObjShader shaderDecl)) /\
    name (shader_returnType shaderDecl)
    = match typeSpecifier vertex_SimpleVertex_decl with
      | Some retType => getText retType
      | None => ""
      end.
Proof.
  apply (shader_declaration_returnType vertex_SimpleVertex_decl).
  reflexivity.
Defined.

(** C10: a shader declaration without a return annotation is built into a
    node whose [returnType.name] is exactly the empty string, and that
    [returnType] is the same as the one of any node built from a declaration
    whose annotation has the empty text. *)
Theorem unannotated_returnType_is_empty (ctx : ParseTree) :
  shader_ctx_ok ctx = true ->
  typeSpecifier ctx = None ->
  exists shaderDecl,
    visitShaderDeclaration ctx = Returns (Some (ObjShader shaderDecl)) /\
    name (shader_returnType shaderDecl) = "" /\
    forall ctx' retType shaderDecl',
      typeSpecifier ctx' = Some retType ->
      getText retType = "" ->
      visitShaderDeclaration ctx' = Returns (Some (ObjShader shaderDecl')) ->
      shader_returnType shaderDecl' = shader_returnType shaderDecl.
Proof.
  intros Hok Hnone.
  destruct (visitShaderDeclaration_returns ctx Hok)
    as (st & id & l & s & e & _ & _ & _ & _ & _ & Hv).
  rewrite Hv, Hnone. eexists. split; [reflexivity|]. split; [reflexivity|].
  intros ctx' retType d' Hsome Hempty Hv'. simpl.
  pose proof (visitShaderDeclaration_defined _ _ Hv') as Hok'.
  destruct (visitShaderDeclaration_returns ctx' Hok')
    as (st' & id' & l' & s' & e' & _ & _ & _ & _ & _ & Hr).
  rewrite Hr, Hsome, Hempty in Hv'.
  injection Hv' as <-. reflexivity.
Qed.

Lemma unannotated_returnType_is_empty_witness :
  exists shaderDecl,
    visitShaderDeclaration fragment_Main_decl
    = Returns (Some (ObjShader shaderDecl)) /\
    name (shader_returnType shaderDecl) = "" /\
    forall ctx' retType shaderDecl',
      typeSpecifier ctx' = Some retType ->
      getText retType = "" ->
      visitShaderDeclaration ctx' = Returns (Some (ObjShader shaderDecl')) ->
      shader_returnType shaderDecl' = shader_returnType shaderDecl.
Proof.
  apply (unannotated_returnType_is_empty fragment_Main_decl); reflexivity.
Defined.

Example empty_annotation_same_node :
  typeSpecifier fragment_Main_empty_annotation <> None /\
  visitShaderDeclaration fragment_Main_empty_annotation
  = visitShaderDeclaration fragment_Main_decl.
Proof. split; [discriminate | reflexivity]. Qed.

(** ** Bodies *)

(** C9: the node built from a struct or a shader declaration has a null
    [body], whatever the declaration holds after its header, and the node is
    still built with every other field extracted: kind, name or id, the
    parameter pairs, the return type, and the start and end offsets. *)
Theorem declaration_body_left_null (structCtx shaderCtx : ParseTree) :
  struct_ctx_ok structCtx = true ->
  shader_ctx_ok shaderCtx = true ->
  (exists id s e structDecl,
     Identifier structCtx = Some id /\
     getStart structCtx = Some s /\ getStop structCtx = Some e /\
     visitStructDeclaration structCtx = Returns (Some (ObjStruct structDecl)) /\
     struct_body structDecl = None /\
     type (struct_node structDecl) = "StructDeclaration" /\
     name (struct_name structDecl) = getText id /\
     start (struct_node structDecl) = getStartIndex s /\
     end_ (struct_node structDecl) = getStopIndex e) /\
  (exists st id s e shaderDecl,
     shaderType shaderCtx = Some st /\ Identifier shaderCtx = Some id /\
     getStart shaderCtx = Some s /\ getStop shaderCtx = Some e /\
     visitShaderDeclaration shaderCtx = Returns (Some (ObjShader shaderDecl)) /\
     shader_body shaderDecl = None /\
     type (shader_node shaderDecl) = getText st ++ "ShaderDeclaration" /\
     name (shader_id shaderDecl) = getText id /\
     Forall2 param_of (parameters_of shaderCtx) (shader_params shaderDecl) /\
     name (shader_returnType shaderDecl)
     = match typeSpecifier shaderCtx with
       | Some retType => getText retType
       | None => ""
       end /\
     start (shader_node shaderDecl) = getStartIndex s /\
     end_ (shader_node shaderDecl) = getStopIndex e).
Proof.
  intros Hstruct Hshader. split.
  - destruct (visitStructDeclaration_returns structCtx Hstruct)
      as (id & s & e & Hid & Hs & He & Hv).
    rewrite Hv. exists id, s, e. eexists.
    split; [exact Hid|]. split; [exact Hs|]. split; [exact He|].
    repeat split.
  - destruct (visitShaderDeclaration_returns shaderCtx Hshader)
      as (st & id & l & s & e & Hst & Hid & Hl & Hs & He & Hv).
    rewrite Hv. exists st, id, s, e. eexists.
    split; [exact Hst|]. split; [exact Hid|].
    split; [exact Hs|]. split; [exact He|].
    split; [reflexivity|]. split; [reflexivity|]. split; [reflexivity|].
    split; [reflexivity|]. split; [exact Hl|].
    split; [reflexivity|]. split; reflexivity.
Qed.

Lemma declaration_body_left_null_witness :
  (exists id s e structDecl,
     Identifier struct_Vertex_decl = Some id /\
     getStart struct_Vertex_decl = Some s /\
     getStop struct_Vertex_decl = Some e /\
     visitStructDeclaration struct_Vertex_decl
     = Returns (Some (ObjStruct structDecl)) /\
     struct_body structDecl = None /\
     type (struct_node structDecl) = "StructDeclaration" /\
     name (struct_name structDecl) = getText id /\
     start (struct_node structDecl) = getStartIndex s /\
     end_ (struct_node structDecl) = getStopIndex e) /\
  (exists st id s e shaderDecl,
     shaderType vertex_SimpleVertex_decl = Some st /\
     Identifier vertex_SimpleVertex_decl = Some id /\
     getStart vertex_SimpleVertex_decl = Some s /\
     getStop vertex_SimpleVertex_decl = Some e /\
     visitShaderDeclaration vertex_SimpleVertex_decl
     = Returns (Some (ObjShader shaderDecl)) /\
     shader_body shaderDecl = None /\
     type (shader_node shaderDecl) = getText st ++ "ShaderDeclaration" /\
     name (shader_id shaderDecl) = getText id /\
     Forall2 param_of (parameters_of vertex_SimpleVertex_decl)
       (shader_params shaderDecl) /\
     name (shader_returnType shaderDecl)
     = match typeSpecifier vertex_SimpleVertex_decl with
       | Some retType => getText retType
       | None => ""
       end /\
     start (shader_node shaderDecl) = getStartIndex s /\
     end_ (shader_node shaderDecl) = getStopIndex e).
Proof.
  apply (declaration_body_left_null struct_Vertex_decl
           vertex_SimpleVertex_decl);
    reflexivity.
Defined.

(** ** Spans *)

Lemma TokenType_eqb_eq (a b : TokenType) :
  TokenType_eqb a b = true -> a = b.
Proof.
  destruct a, b; simpl; try discriminate; auto.
  intros H. apply N.eqb_eq in H. now subst.
Qed.

Lemma Token_eqb_eq (a b : Token) : Token_eqb a b = true -> a = b.
Proof.
  destruct a as [ta xa sa ea], b as [tb xb sb eb]. unfold Token_eqb. simpl.
  intros H.
  apply andb_prop in H as [H He]. apply andb_prop in H as [H Hs].
  apply andb_prop in H as [Ht Hx].
  apply TokenType_eqb_eq in Ht. apply String.eqb_eq in Hx.
  apply N.eqb_eq in Hs. apply N.eqb_eq in He. now subst.
Qed.

Lemma is_token_ptr_eq (p : option Token) (t : Token) :
  is_token_ptr p t = true -> p = Some t.
Proof.
  destruct p as [u|]; simpl; [|discriminate].
  intros H. now rewrite (Token_eqb_eq _ _ H).
Qed.

Lemma last_cons {A : Type} (l : list A) (a d : A) :
  last (a :: l) d = last l a.
Proof.
  revert a d. induction l as [|b l IH]; intros a d; [reflexivity|].
  change (last (a :: b :: l) d) with (last (b :: l) d).
  now rewrite (IH b d), (IH b a).
Qed.

(** Of tokens that lie in the source text one after the other, the first
    starts no later than the last one stops. *)
Lemma tokens_in_order_span (L : N) (ts : list Token) :
  forall first,
    forallb (token_in_source L) (first :: ts) = true ->
    tokens_in_order (first :: ts) = true ->
    (getStartIndex first <= getStopIndex (last ts first) < L)%N.
Proof.
  induction ts as [|u ts IH]; intros first Hin Hord.
  - simpl in *. rewrite andb_true_r in Hin. unfold token_in_source in Hin.
    apply andb_prop in Hin as [H1 H2].
    apply N.leb_le in H1. apply N.ltb_lt in H2. lia.
  - rewrite last_cons.
    change (forallb (token_in_source L) (first :: u :: ts))
      with (token_in_source L first && forallb (token_in_source L) (u :: ts))
      in Hin.
    apply andb_prop in Hin as [Hfirst Hin].
    change (tokens_in_order (first :: u :: ts))
      with ((getStopIndex first <? getStartIndex u)%N
            && tokens_in_order (u :: ts)) in Hord.
    apply andb_prop in Hord as [Hlt Hord].
    specialize (IH u Hin Hord).
    unfold token_in_source in Hfirst.
    apply andb_prop in Hfirst as [H1 _].
    apply N.leb_le in H1. apply N.ltb_lt in Hlt. lia.
Qed.

(** The identifier of a context is one of the tokens under it. *)
Lemma Identifier_in_tokens (ctx id : ParseTree) :
  Identifier ctx = Some id -> tokens ctx <> [].
Proof.
  unfold Identifier, getToken. intros H.
  apply nth_error_In in H. apply filter_In in H as [Hin Htok].
  destruct ctx as [a symbol | a rule s e cs]; simpl in Hin; [contradiction|].
  destruct id as [b symbol | b rule' s' e' cs']; simpl in Htok;
    [|discriminate].
  simpl. intros Hnil.
  assert (In symbol (flat_map tokens cs)) as Hs.
  { apply in_flat_map. exists (TerminalNode b symbol). split; [exact Hin|].
    simpl. auto. }
  rewrite Hnil in Hs. contradiction.
Qed.

(** The span of a valid declaration context lies within the source text. *)
Lemma valid_declaration_span (L : N) (ctx id : ParseTree) (s e : Token) :
  valid_tree L ctx = true ->
  Identifier ctx = Some id ->
  getStart ctx = Some s ->
  getStop ctx = Some e ->
  (getStartIndex s <= getStopIndex e < L)%N.
Proof.
  intros Hvalid Hid Hs He.
  pose proof (Identifier_in_tokens _ _ Hid) as Hne.
  unfold valid_tree in Hvalid.
  apply andb_prop in Hvalid as [Hvalid Hspans].
  apply andb_prop in Hvalid as [Hin Hord].
  destruct ctx as [a symbol | a rule s0 e0 cs]; [discriminate|].
  simpl in *. subst s0 e0.
  destruct (flat_map tokens cs) as [|first rest]; [congruence|].
  apply andb_prop in Hspans as [Hspan _].
  apply andb_prop in Hspan as [Hfirst Hlast].
  apply is_token_ptr_eq in Hfirst. apply is_token_ptr_eq in Hlast.
  injection Hfirst as ->. injection Hlast as ->.
  exact (tokens_in_order_span L rest first Hin Hord).
Qed.

(** C6: the node built from a declaration context of a valid parse tree over
    a source text of length [L] has [0 <= start <= end <= L - 1]. *)
Theorem span_invariant (L : N) (ctx : ParseTree) (ast : NodePtr) :
  valid_tree L ctx = true ->
  visitStructDeclaration ctx = Returns ast \/
  visitShaderDeclaration ctx = Returns ast ->
  exists node, ast = Some node /\ span_within L (node_of node).
Proof.
  intros Hvalid [Hv | Hv].
  - pose proof (visitStructDeclaration_defined _ _ Hv) as Hok.
    destruct (visitStructDeclaration_returns ctx Hok)
      as (id & s & e & Hid & Hs & He & Hr).
    rewrite Hr in Hv. injection Hv as <-.
    eexists. split; [reflexivity|].
    pose proof (valid_declaration_span L ctx id s e Hvalid Hid Hs He).
    unfold span_within. simpl. lia.
  - pose proof (visitShaderDeclaration_defined _ _ Hv) as Hok.
    destruct (visitShaderDeclaration_returns ctx Hok)
      as (st & id & l & s & e & _ & Hid & _ & Hs & He & Hr).
    rewrite Hr in Hv. injection Hv as <-.
    eexists. split; [reflexivity|].
    pose proof (valid_declaration_span L ctx id s e Hvalid Hid Hs He).
    unfold span_within. simpl. lia.
Qed.

Lemma span_invariant_witness :
  exists node,
    Some (ObjShader
      {| shader_node := {| type := "vertexShaderDeclaration";
                           start := 0; end_ := 115 |};
         shader_id := {| name := "SimpleVertex" |};
         shader_params :=
           [ {| param_name := "vertex"; param_type := "Vertex" |};
             {| param_name := "uniforms"; param_type := "Uniforms" |} ];
         shader_returnType := {| name := "VertexOutput" |};
         shader_body := None |}) = Some node /\
    span_within 116 (node_of node).
Proof.
  apply (span_invariant 116 vertex_SimpleVertex_decl).
  - reflexivity.
  - right. reflexivity.
Defined.

(** ** Induction on trees *)

(** Induction on a tree with the property known of all the children. *)
Lemma ParseTree_nested_ind (P : ParseTree -> Prop) :
  (forall a symbol, P (TerminalNode a symbol)) ->
  (forall a rule s e cs, Forall P cs -> P (RuleContext a rule s e cs)) ->
  forall t, P t.
Proof.
  intros Hterminal Hrule.
  fix self 1.
  intros [a symbol | a rule s e cs].
  - apply Hterminal.
  - apply Hrule.
    induction cs as [|c cs IH]; constructor; [apply self | exact IH].
Qed.

Lemma visit_program (a : N) (s e : option Token) (cs : list ParseTree) :
  visit (RuleContext a RuleProgram s e cs)
  = fold_left visit_next cs (@Returns NodePtr None).
Proof. reflexivity. Qed.

(** ** Unsupported constructs *)

Lemma visit_children_throws (cs : list ParseTree) (err : BuildError) :
  fold_left visit_next cs (Throws err) = Throws err.
Proof. induction cs as [|c cs IH]; [reflexivity | exact IH]. Qed.

Lemma visit_children_returns (cs : list ParseTree) :
  (forall c, In c cs -> exists p, visit c = Returns p) ->
  forall result,
  exists result', fold_left visit_next cs (Returns result) = Returns result'.
Proof.
  induction cs as [|c cs IH]; intros Hcs result.
  - exists result. reflexivity.
  - cbn [fold_left].
    assert (exists r, visit_next (Returns result) c = Returns r) as [r Hr].
    { destruct c as [a symbol | a rule s e ds].
      - exists result. reflexivity.
      - apply Hcs. now left. }
    rewrite Hr. apply IH. intros d Hd. apply Hcs. now right.
Qed.

Lemma visit_children_throws_inv (cs : list ParseTree) (err : BuildError) :
  forall acc,
    fold_left visit_next cs acc = Throws err ->
    acc = Throws err \/ exists c, In c cs /\ visit c = Throws err.
Proof.
  induction cs as [|c cs IH]; intros acc H; [now left|].
  cbn [fold_left] in H.
  destruct (IH _ H) as [Hnext | (d & Hd & Hv)].
  - destruct acc as [result | err' |]; [|now left|discriminate].
    right. exists c. split; [now left|].
    destruct c; [discriminate | exact Hnext].
  - right. exists d. split; [now right | exact Hv].
Qed.

Lemma push_parameters_no_throw (ps : list ParseTree) :
  forall decl err, push_parameters ps decl <> Throws err.
Proof.
  induction ps as [|param rest IH]; intros decl err; simpl; [discriminate|].
  destruct (Identifier param); [|discriminate].
  destruct (typeSpecifier param); [|discriminate].
  apply IH.
Qed.

Lemma visitStructDeclaration_no_throw (ctx : ParseTree) (err : BuildError) :
  visitStructDeclaration ctx <> Throws err.
Proof.
  unfold visitStructDeclaration.
  destruct (Identifier ctx); [|discriminate].
  destruct (getStart ctx); [|discriminate].
  destruct (getStop ctx); discriminate.
Qed.

Lemma visitShaderDeclaration_no_throw (ctx : ParseTree) (err : BuildError) :
  visitShaderDeclaration ctx <> Throws err.
Proof.
  unfold visitShaderDeclaration.
  destruct (shaderType ctx); [|discriminate].
  destruct (Identifier ctx); [|discriminate].
  simpl.
  assert (forall c : outcome ShaderDeclaration,
             (forall e, c <> Throws e) ->
             forall k : ShaderDeclaration -> outcome NodePtr,
               (forall d e, k d <> Throws e) ->
             bind c k <> Throws err) as Hbind.
  { intros [d | e |] Hc k Hk; simpl; [apply Hk | | discriminate].
    exfalso. now apply (Hc e). }
  apply Hbind.
  - intros e. destruct (parameterList ctx);
      [apply push_parameters_no_throw | discriminate].
  - intros d e.
    destruct (getStart ctx); [|discriminate].
    destruct (getStop ctx); discriminate.
Qed.

Lemma visit_not_dispatched (a : N) (rule : RuleKind) (s e : option Token)
    (cs : list ParseTree) :
  dispatched rule = false ->
  visit (RuleContext a rule s e cs)
  = Throws (UnsupportedConstruct (ruleName rule)).
Proof. intros H. destruct rule; try discriminate; reflexivity. Qed.

Lemma visit_throws_kind (t : ParseTree) (err : BuildError) :
  visit t = Throws err ->
  exists rule, err = UnsupportedConstruct (ruleName rule) /\
               dispatched rule = false.
Proof.
  induction t as [a symbol | a rule s e cs IH] using ParseTree_nested_ind;
    [discriminate|].
  intros H.
  destruct (dispatched rule) eqn:Hrule.
  - destruct rule; try discriminate.
    + apply visit_children_throws_inv in H as [H | (c & Hc & Hv)];
        [discriminate|].
      rewrite Forall_forall in IH. exact (IH c Hc Hv).
    + now apply visitStructDeclaration_no_throw in H.
    + now apply visitShaderDeclaration_no_throw in H.
  - rewrite (visit_not_dispatched a rule s e cs Hrule) in H.
    injection H as <-. exists rule. split; [reflexivity | exact Hrule].
Qed.

(** C2: a production that is neither the program root nor a struct or
    shader declaration makes the builder fail with [UnsupportedConstruct]
    carrying the production's textual kind, as the root and as the first
    such production under the program root; a failure returns no node; and
    every failure of the builder is such an [UnsupportedConstruct], the two
    visit methods raising nothing themselves. *)
Theorem unsupported_construct :
  (forall a rule s e cs,
      dispatched rule = false ->
      visit (RuleContext a rule s e cs)
      = Throws (UnsupportedConstruct (ruleName rule))) /\
  (forall a s e before c after rule,
      rule_of c = Some rule ->
      dispatched rule = false ->
      (forall b, In b before -> exists p, visit b = Returns p) ->
      visit (RuleContext a RuleProgram s e (before ++ c :: after))
      = Throws (UnsupportedConstruct (ruleName rule))) /\
  (forall t err,
      visit t = Throws err ->
      (forall p, visit t <> Returns p) /\
      exists rule, err = UnsupportedConstruct (ruleName rule) /\
                   dispatched rule = false) /\
  (forall ctx err,
      visitStructDeclaration ctx <> Throws err /\
      visitShaderDeclaration ctx <> Throws err).
Proof.
  pose proof visit_not_dispatched as Hroot.
  split; [exact Hroot|]. split; [|split].
  - intros a s e before c after rule Hc Hrule Hbefore.
    rewrite visit_program, fold_left_app. cbn [fold_left].
    destruct (visit_children_returns before Hbefore None) as [r ->].
    destruct c as [b symbol | b rule' s' e' ds]; [discriminate|].
    injection Hc as ->.
    unfold visit_next at 2. cbn [bind].
    rewrite (Hroot b rule s' e' ds Hrule).
    apply visit_children_throws.
  - intros t err H. split.
    + intros p Hp. congruence.
    + exact (visit_throws_kind t err H).
  - intros ctx err. split;
      [apply visitStructDeclaration_no_throw
      |apply visitShaderDeclaration_no_throw].
Qed.

Lemma unsupported_construct_witness :
  visit import_std_tree = Throws (UnsupportedConstruct "importDeclaration").
Proof.
  refine (proj1 (proj2 unsupported_construct) 20480%N _ _ [] import_std_decl []
            (RuleOther "importDeclaration") _ _ _).
  - reflexivity.
  - reflexivity.
  - intros b [].
Defined.

(** * Further properties of the visitor *)

(** ** When the visit methods have defined behaviour *)

Lemma push_parameters_undefined (ps : list ParseTree)
    (decl : ShaderDeclaration) :
  forallb parameter_ok ps = false ->
  push_parameters ps decl = Undefined.
Proof.
  intros Hbad.
  destruct (push_parameters ps decl) as [decl' | err |] eqn:H.
  - apply push_parameters_defined in H. congruence.
  - now apply push_parameters_no_throw in H.
  - reflexivity.
Qed.

(** X1: [visitStructDeclaration] returns a non-null [StructDeclaration]
    when the context has an identifier token, a start token and a stop
    token; when any of the three is missing it dereferences a null pointer. *)
Theorem visitStructDeclaration_behaviour (ctx : ParseTree) :
  if struct_ctx_ok ctx
  then exists structDecl,
         visitStructDeclaration ctx = Returns (Some (ObjStruct structDecl))
  else visitStructDeclaration ctx = Undefined.
Proof.
  destruct (struct_ctx_ok ctx) eqn:Hok.
  - destruct (visitStructDeclaration_returns ctx Hok)
      as (id & s & e & _ & _ & _ & Hv).
    rewrite Hv. eexists. reflexivity.
  - destruct (visitStructDeclaration ctx) as [p | err |] eqn:H.
    + apply visitStructDeclaration_defined in H. congruence.
    + now apply visitStructDeclaration_no_throw in H.
    + reflexivity.
Qed.

(** X2: [visitShaderDeclaration] returns a non-null [ShaderDeclaration]
    when the context has its stage keyword, an identifier token, a start and
    a stop token, and every parameter of its parameter list, if it has one,
    has an identifier and a type annotation; otherwise, a single parameter
    without its annotation included, it dereferences a null pointer. *)
Theorem visitShaderDeclaration_behaviour (ctx : ParseTree) :
  if shader_ctx_ok ctx
  then exists shaderDecl,
         visitShaderDeclaration ctx = Returns (Some (ObjShader shaderDecl))
  else visitShaderDeclaration ctx = Undefined.
Proof.
  destruct (shader_ctx_ok ctx) eqn:Hok.
  - destruct (visitShaderDeclaration_returns ctx Hok)
      as (st & id & l & s & e & _ & _ & _ & _ & _ & Hv).
    rewrite Hv. eexists. reflexivity.
  - destruct (visitShaderDeclaration ctx) as [p | err |] eqn:H.
    + apply visitShaderDeclaration_defined in H. congruence.
    + now apply visitShaderDeclaration_no_throw in H.
    + reflexivity.
Qed.

(** A shader whose second parameter has lost its type annotation. *)
Example missing_annotation_is_undefined :
  visitShaderDeclaration
    (RuleContext 1 RuleShaderDeclaration
       (Some (mkToken (T_Other 6) "compute" 0 6))
       (Some (mkToken (T_Other 3) "}" 20 20))
       [ RuleContext 2 RuleShaderType None None
           [ TerminalNode 3 (mkToken (T_Other 6) "compute" 0 6) ];
         TerminalNode 4 (mkToken T_Identifier "K" 8 8);
         RuleContext 5 RuleParameterList None None
           [ RuleContext 6 RuleParameter None None
               [ TerminalNode 7 (mkToken T_Identifier "a" 10 10);
                 RuleContext 8 RuleTypeSpecifier None None
                   [ TerminalNode 9 (mkToken T_Identifier "f32" 12 14) ] ];
             RuleContext 10 RuleParameter None None
               [ TerminalNode 11 (mkToken T_Identifier "b" 16 16) ] ] ])
  = Undefined.
Proof. reflexivity. Qed.

(** ** The builder and the narrowing of its result *)

(** X3: whatever [visitStructDeclaration] returns narrows to
    [StructDeclaration] and not to [ShaderDeclaration], and whatever
    [visitShaderDeclaration] returns narrows to [ShaderDeclaration] and not
    to [StructDeclaration]. *)
Theorem visit_result_narrows (structCtx shaderCtx : ParseTree)
    (p q : NodePtr) :
  visitStructDeclaration structCtx = Returns p ->
  visitShaderDeclaration shaderCtx = Returns q ->
  ((exists structDecl, dynamic_cast_StructDeclaration p = Some structDecl) /\
   dynamic_cast_ShaderDeclaration p = None) /\
  ((exists shaderDecl, dynamic_cast_ShaderDeclaration q = Some shaderDecl) /\
   dynamic_cast_StructDeclaration q = None).
Proof.
  intros Hp Hq. split.
  - pose proof (visitStructDeclaration_defined _ _ Hp) as Hok.
    destruct (visitStructDeclaration_returns structCtx Hok)
      as (id & s & e & _ & _ & _ & Hr).
    rewrite Hr in Hp. injection Hp as <-.
    split; [eexists|]; reflexivity.
  - pose proof (visitShaderDeclaration_defined _ _ Hq) as Hok.
    destruct (visitShaderDeclaration_returns shaderCtx Hok)
      as (st & id & l & s & e & _ & _ & _ & _ & _ & Hr).
    rewrite Hr in Hq. injection Hq as <-.
    split; [eexists|]; reflexivity.
Qed.

Lemma visit_result_narrows_witness :
  exists p q,
    visitStructDeclaration struct_Vertex_decl = Returns p /\
    visitShaderDeclaration fragment_Main_decl = Returns q /\
    ((exists structDecl, dynamic_cast_StructDeclaration p = Some structDecl) /\
     dynamic_cast_ShaderDeclaration p = None) /\
    ((exists shaderDecl, dynamic_cast_ShaderDeclaration q = Some shaderDecl) /\
     dynamic_cast_StructDeclaration q = None).
Proof.
  do 2 eexists. split; [reflexivity|]. split; [reflexivity|].
  apply (visit_result_narrows struct_Vertex_decl fragment_Main_decl);
    reflexivity.
Defined.

(** ** The parameter loop *)


(** ** The span and the tokens of a declaration *)

(** Of tokens that lie in the source text one after the other, each lies
    between the start of the first and the stop of the last. *)
Lemma tokens_in_order_enclosed (L : N) (ts : list Token) :
  forall first,
    forallb (token_in_source L) (first :: ts) = true ->
    tokens_in_order (first :: ts) = true ->
    forall t, In t (first :: ts) ->
      (getStartIndex first <= getStartIndex t)%N /\
      (getStopIndex t <= getStopIndex (last ts first))%N.
Proof.
  induction ts as [|u ts IH]; intros first Hin Hord t Ht.
  - destruct Ht as [<- | []]. simpl. lia.
  - pose proof Hin as Hin'. pose proof Hord as Hord'.
    change (forallb (token_in_source L) (first :: u :: ts))
      with (token_in_source L first && forallb (token_in_source L) (u :: ts))
      in Hin.
    apply andb_prop in Hin as [Hfirst Hin].
    change (tokens_in_order (first :: u :: ts))
      with ((getStopIndex first <? getStartIndex u)%N
            && tokens_in_order (u :: ts)) in Hord.
    apply andb_prop in Hord as [Hlt Hord].
    unfold token_in_source in Hfirst.
    apply andb_prop in Hfirst as [Hle _].
    apply N.leb_le in Hle. apply N.ltb_lt in Hlt.
    rewrite last_cons.
    destruct Ht as [<- | Ht].
    + pose proof (tokens_in_order_span L ts u Hin Hord). lia.
    + destruct (IH u Hin Hord t Ht). lia.
Qed.

(** The start and stop token of a valid declaration context are the first
    and the last of its tokens. *)
Lemma valid_declaration_tokens (L : N) (ctx id : ParseTree) :
  valid_tree L ctx = true ->
  Identifier ctx = Some id ->
  exists first rest,
    tokens ctx = first :: rest /\
    getStart ctx = Some first /\
    getStop ctx = Some (last rest first) /\
    forallb (token_in_source L) (first :: rest) = true /\
    tokens_in_order (first :: rest) = true.
Proof.
  intros Hvalid Hid.
  pose proof (Identifier_in_tokens _ _ Hid) as Hne.
  unfold valid_tree in Hvalid.
  apply andb_prop in Hvalid as [Hvalid Hspans].
  apply andb_prop in Hvalid as [Hin Hord].
  destruct ctx as [a symbol | a rule s e cs]; [discriminate|].
  simpl in *.
  destruct (flat_map tokens cs) as [|first rest]; [congruence|].
  apply andb_prop in Hspans as [Hspan _].
  apply andb_prop in Hspan as [Hfirst Hlast].
  apply is_token_ptr_eq in Hfirst. apply is_token_ptr_eq in Hlast.
  exists first, rest. auto.
Qed.

(** X5: the span of the node built from a declaration context of a valid
    parse tree encloses every token under that context, those of the body
    included. *)
Theorem span_encloses_tokens (L : N) (ctx : ParseTree) (ast : NodePtr) :
  valid_tree L ctx = true ->
  visitStructDeclaration ctx = Returns ast \/
  visitShaderDeclaration ctx = Returns ast ->
  exists node,
    ast = Some node /\
    forall t, In t (tokens ctx) -> encloses (node_of node) t.
Proof.
  intros Hvalid [Hv | Hv].
  - pose proof (visitStructDeclaration_defined _ _ Hv) as Hok.
    destruct (visitStructDeclaration_returns ctx Hok)
      as (id & s & e & Hid & Hs & He & Hr).
    rewrite Hr in Hv. injection Hv as <-.
    eexists. split; [reflexivity|].
    destruct (valid_declaration_tokens L ctx id Hvalid Hid)
      as (first & rest & Htoks & Hs' & He' & Hin & Hord).
    rewrite Hs in Hs'. rewrite He in He'.
    injection Hs' as ->. injection He' as ->.
    intros t Ht. rewrite Htoks in Ht.
    exact (tokens_in_order_enclosed L rest first Hin Hord t Ht).
  - pose proof (visitShaderDeclaration_defined _ _ Hv) as Hok.
    destruct (visitShaderDeclaration_returns ctx Hok)
      as (st & id & l & s & e & _ & Hid & _ & Hs & He & Hr).
    rewrite Hr in Hv. injection Hv as <-.
    eexists. split; [reflexivity|].
    destruct (valid_declaration_tokens L ctx id Hvalid Hid)
      as (first & rest & Htoks & Hs' & He' & Hin & Hord).
    rewrite Hs in Hs'. rewrite He in He'.
    injection Hs' as ->. injection He' as ->.
    intros t Ht. rewrite Htoks in Ht.
    exact (tokens_in_order_enclosed L rest first Hin Hord t Ht).
Qed.

Lemma span_encloses_tokens_witness :
  exists ast node,
    visitShaderDeclaration compute_Add_decl = Returns ast /\
    ast = Some node /\
    forall t, In t (tokens compute_Add_decl) -> encloses (node_of node) t.
Proof.
  eexists.
  destruct (span_encloses_tokens 112 compute_Add_decl _ eq_refl
              (or_intror eq_refl)) as (node & Hnode & Henc).
  exists node. split; [reflexivity|]. split; [exact Hnode | exact Henc].
Defined.

(** ** What the visitor reads of a context *)

Lemma filter_filter_implied {A : Type} (f g : A -> bool) (l : list A) :
  (forall a, f a = true -> g a = true) ->
  filter f (filter g l) = filter f l.
Proof.
  intros Himp. induction l as [|a l IH]; [reflexivity|].
  simpl. destruct (g a) eqn:Hg.
  - simpl. now rewrite IH.
  - rewrite IH. destruct (f a) eqn:Hf; [|reflexivity].
    apply Himp in Hf. congruence.
Qed.

Lemma filter_header_agree (f : ParseTree -> bool) (cs ds : list ParseTree) :
  (forall c, f c = true -> shader_header_child c = true) ->
  filter shader_header_child cs = filter shader_header_child ds ->
  filter f cs = filter f ds.
Proof.
  intros Himp H.
  rewrite <- (filter_filter_implied f shader_header_child cs Himp).
  rewrite <- (filter_filter_implied f shader_header_child ds Himp).
  now rewrite H.
Qed.

(** X6: the nodes the two visit methods build depend on a context only
    through its start and stop token and through those of its children
    that are a stage keyword, an identifier token, a parameter list or a
    type annotation; the body and the punctuation have no influence. *)
Theorem visit_reads_header_only (ctx ctx' : ParseTree) :
  getStart ctx = getStart ctx' ->
  getStop ctx = getStop ctx' ->
  filter shader_header_child (children ctx)
  = filter shader_header_child (children ctx') ->
  visitStructDeclaration ctx = visitStructDeclaration ctx' /\
  visitShaderDeclaration ctx = visitShaderDeclaration ctx'.
Proof.
  intros Hs He Hcs.
  assert (forall ttype, ttype = T_Identifier ->
            getToken ttype 0 ctx = getToken ttype 0 ctx') as Htok.
  { intros ttype ->. unfold getToken. f_equal.
    apply filter_header_agree; [|exact Hcs].
    intros c Hc. unfold shader_header_child. rewrite Hc.
    now rewrite orb_true_r. }
  assert (forall k, dispatched k = false -> k <> RuleParameter ->
            (forall kind, k <> RuleOther kind) ->
            getRuleContext k 0 ctx = getRuleContext k 0 ctx') as Hrule.
  { intros k Hk Hp Ho. unfold getRuleContext, getRuleContexts. f_equal.
    apply filter_header_agree; [|exact Hcs].
    intros c Hc. unfold shader_header_child.
    destruct c as [a symbol | a rule s e ds]; [discriminate|].
    simpl in *.
    destruct k; try discriminate; try congruence;
      try (exfalso; eapply Ho; reflexivity);
      rewrite Hc; now rewrite ?orb_true_r. }
  split.
  - unfold visitStructDeclaration, Identifier.
    now rewrite (Htok _ eq_refl), Hs, He.
  - unfold visitShaderDeclaration, Identifier, shaderType, parameterList,
      typeSpecifier.
    rewrite (Htok _ eq_refl), Hs, He.
    rewrite (Hrule RuleShaderType), (Hrule RuleParameterList),
      (Hrule RuleTypeSpecifier); try reflexivity; discriminate.
Qed.

Lemma visit_reads_header_only_witness :
  visitStructDeclaration vertex_SimpleVertex_decl
  = visitStructDeclaration (header_only vertex_SimpleVertex_decl) /\
  visitShaderDeclaration vertex_SimpleVertex_decl
  = visitShaderDeclaration (header_only vertex_SimpleVertex_decl).
Proof.
  apply (visit_reads_header_only vertex_SimpleVertex_decl
           (header_only vertex_SimpleVertex_decl)); reflexivity.
Defined.

(** ** The kind strings *)

Lemma string_length_append (a b : string) :
  String.length (a ++ b) = String.length a + String.length b.
Proof. induction a as [|c a IH]; simpl; [reflexivity | now rewrite IH]. Qed.

Lemma string_append_assoc (a b c : string) :
  ((a ++ b) ++ c = a ++ (b ++ c))%string.
Proof. induction a as [|x a IH]; simpl; [reflexivity | now rewrite IH]. Qed.

(** A suffix can be taken off both sides of an equation. *)
Lemma string_append_cancel (a b suffix : string) :
  (a ++ suffix = b ++ suffix)%string -> a = b.
Proof.
  revert b. induction a as [|x a IH]; intros [|y b] H.
  - reflexivity.
  - apply (f_equal String.length) in H.
    simpl in H. rewrite string_length_append in H. lia.
  - apply (f_equal String.length) in H.
    simpl in H. rewrite string_length_append in H. lia.
  - simpl in H. injection H as -> H. f_equal. now apply IH.
Qed.

(** X7: the [type] string of a node built by [visitShaderDeclaration] is
    never the [type] string of a node built by [visitStructDeclaration],
    whatever the text of the stage keyword. *)
Theorem kinds_never_collide (structCtx shaderCtx : ParseTree)
    (p q : Object) :
  visitStructDeclaration structCtx = Returns (Some p) ->
  visitShaderDeclaration shaderCtx = Returns (Some q) ->
  type (node_of p) <> type (node_of q).
Proof.
  intros Hp Hq.
  pose proof (visitStructDeclaration_defined _ _ Hp) as Hok.
  destruct (visitStructDeclaration_returns structCtx Hok)
    as (id & s & e & _ & _ & _ & Hr).
  rewrite Hr in Hp. injection Hp as <-.
  pose proof (visitShaderDeclaration_defined _ _ Hq) as Hok'.
  destruct (visitShaderDeclaration_returns shaderCtx Hok')
    as (st & id' & l & s' & e' & _ & _ & _ & _ & _ & Hr').
  rewrite Hr' in Hq. injection Hq as <-.
  simpl. intros H.
  pose proof (f_equal String.length H) as Hlen.
  rewrite string_length_append in Hlen. simpl in Hlen.
  destruct (getText st) as [|c rest]; [discriminate H|].
  simpl in Hlen. lia.
Qed.

Lemma kinds_never_collide_witness :
  exists p q,
    visitStructDeclaration struct_Vertex_decl = Returns (Some p) /\
    visitShaderDeclaration compute_Add_decl = Returns (Some q) /\
    type (node_of p) <> type (node_of q).
Proof.
  do 2 eexists. split; [reflexivity|]. split; [reflexivity|].
  apply (kinds_never_collide struct_Vertex_decl compute_Add_decl);
    reflexivity.
Defined.

(** X8: two shader nodes with the same [type] string were built from stage
    keywords with the same text: the stage keyword can be read back from
    the kind. *)
Theorem kind_determines_stage (ctx ctx' st st' : ParseTree)
    (d d' : ShaderDeclaration) :
  shaderType ctx = Some st ->
  shaderType ctx' = Some st' ->
  visitShaderDeclaration ctx = Returns (Some (ObjShader d)) ->
  visitShaderDeclaration ctx' = Returns (Some (ObjShader d')) ->
  type (shader_node d) = type (shader_node d') ->
  getText st = getText st'.
Proof.
  intros Hst Hst' Hv Hv' Htype.
  pose proof (visitShaderDeclaration_defined _ _ Hv) as Hok.
  destruct (visitShaderDeclaration_returns ctx Hok)
    as (st0 & id & l & s & e & Hst0 & _ & _ & _ & _ & Hr).
  rewrite Hr in Hv. injection Hv as <-.
  pose proof (visitShaderDeclaration_defined _ _ Hv') as Hok'.
  destruct (visitShaderDeclaration_returns ctx' Hok')
    as (st1 & id' & l' & s' & e' & Hst1 & _ & _ & _ & _ & Hr').
  rewrite Hr' in Hv'. injection Hv' as <-.
  simpl in Htype.
  rewrite Hst in Hst0. rewrite Hst' in Hst1.
  injection Hst0 as <-. injection Hst1 as <-.
  exact (string_append_cancel _ _ _ Htype).
Qed.

Lemma kind_determines_stage_witness :
  exists st st',
    shaderType compute_Add_decl = Some st /\
    shaderType (relocate 7 compute_Add_decl) = Some st' /\
    getText st = getText st'.
Proof.
  do 2 eexists. split; [reflexivity|]. split; [reflexivity|].
  eapply (kind_determines_stage compute_Add_decl
            (relocate 7 compute_Add_decl));
    reflexivity.
Defined.

(** ** The texts the visitor stores *)

Lemma join_texts_app (ts us : list Token) :
  join_texts (ts ++ us) = (join_texts ts ++ join_texts us)%string.
Proof.
  induction ts as [|t ts IH]; [reflexivity|].
  simpl. fold (join_texts (ts ++ us)). fold (join_texts ts).
  now rewrite IH, string_append_assoc.
Qed.

Lemma string_append_empty (a : string) : (a ++ "")%string = a.
Proof. induction a as [|c a IH]; simpl; [reflexivity | now rewrite IH]. Qed.

(** The text of a node is the texts of the tokens under it, joined. *)
Lemma getText_join_texts (t : ParseTree) :
  getText t = join_texts (tokens t).
Proof.
  induction t as [a symbol | a rule s e cs IH] using ParseTree_nested_ind.
  - simpl. now rewrite string_append_empty.
  - simpl. induction IH as [|c cs Hc _ IHcs]; [reflexivity|].
    simpl. now rewrite join_texts_app, Hc, IHcs.
Qed.

(** X9: the type text of every pair of [params] and the text of
    [returnType] are the texts of the tokens under the type annotation,
    joined in order with nothing in between. *)
Theorem type_texts_are_joined_tokens (ctx : ParseTree) :
  shader_ctx_ok ctx = true ->
  exists shaderDecl,
    visitShaderDeclaration ctx = Returns (Some (ObjShader shaderDecl)) /\
    Forall2
      (fun param p =>
         exists ty, typeSpecifier param = Some ty /\
                    param_type p = join_texts (tokens ty))
      (parameters_of ctx) (shader_params shaderDecl) /\
    name (shader_returnType shaderDecl)
    = match typeSpecifier ctx with
      | Some retType => join_texts (tokens retType)
      | None => ""
      end.
Proof.
  intros Hok.
  destruct (visitShaderDeclaration_returns ctx Hok)
    as (st & id & l & s & e & _ & _ & Hl & _ & _ & Hv).
  rewrite Hv. eexists. split; [reflexivity|]. simpl. split.
  - revert Hl. apply Forall2_impl.
    intros param p (id' & ty & _ & Hty & ->).
    exists ty. split; [exact Hty|]. simpl. apply getText_join_texts.
  - destruct (typeSpecifier ctx); [apply getText_join_texts | reflexivity].
Qed.

Lemma type_texts_are_joined_tokens_witness :
  exists shaderDecl,
    visitShaderDeclaration compute_Add_decl
    = Returns (Some (ObjShader shaderDecl)) /\
    Forall2
      (fun param p =>
         exists ty, typeSpecifier param = Some ty /\
                    param_type p = join_texts (tokens ty))
      (parameters_of compute_Add_decl) (shader_params shaderDecl) /\
    name (shader_returnType shaderDecl)
    = match typeSpecifier compute_Add_decl with
      | Some retType => join_texts (tokens retType)
      | None => ""
      end.
Proof.
  apply (type_texts_are_joined_tokens compute_Add_decl). reflexivity.
Defined.

(** ** Which identifier names a declaration *)

Lemma filter_no_identifier (pre : list ParseTree) :
  no_identifier pre = true ->
  filter (is_token T_Identifier) pre = [].
Proof.
  induction pre as [|c pre IH]; [reflexivity|].
  unfold no_identifier. simpl. intros H.
  apply andb_prop in H as [Hc Hpre].
  destruct (is_token T_Identifier c); [discriminate|].
  exact (IH Hpre).
Qed.

(** The first identifier token among the children is the one
    [Identifier()] gives. *)
Lemma Identifier_first (a b : N) (rule : RuleKind) (s e : option Token)
    (pre post : list ParseTree) (symbol : Token) :
  no_identifier pre = true ->
  getType symbol = T_Identifier ->
  Identifier (RuleContext a rule s e (pre ++ TerminalNode b symbol :: post))
  = Some (TerminalNode b symbol).
Proof.
  intros Hpre Hty. unfold Identifier, getToken. simpl.
  rewrite filter_app, (filter_no_identifier pre Hpre). simpl.
  now rewrite Hty.
Qed.

(** X10: the name of a struct declaration is the text of the first
    identifier token directly under the context, whatever follows it and
    whatever identifiers lie deeper in the tree; with a start and a stop
    token the whole node is determined. *)
Theorem struct_name_is_first_identifier (a b : N) (rule : RuleKind)
    (s e symbol : Token) (pre post : list ParseTree) :
  no_identifier pre = true ->
  getType symbol = T_Identifier ->
  visitStructDeclaration
    (RuleContext a rule (Some s) (Some e)
       (pre ++ TerminalNode b symbol :: post))
  = Returns (Some (ObjStruct
      {| struct_node := {| type := "StructDeclaration";
                           start := getStartIndex s;
                           end_ := getStopIndex e |};
         struct_name := {| name := tokenText symbol |};
         struct_body := None |})).
Proof.
  intros Hpre Hty. unfold visitStructDeclaration.
  rewrite (Identifier_first a b rule (Some s) (Some e) pre post symbol Hpre Hty).
  reflexivity.
Qed.

Lemma struct_name_is_first_identifier_witness :
  visitStructDeclaration
    (RuleContext 1 RuleStructDeclaration
       (Some (mkToken (T_Other 1) "struct" 0 5))
       (Some (mkToken T_Identifier "B" 9 9))
       ([TerminalNode 2 (mkToken (T_Other 1) "struct" 0 5)]
          ++ TerminalNode 3 (mkToken T_Identifier "A" 7 7)
          :: [TerminalNode 4 (mkToken T_Identifier "B" 9 9)]))
  = Returns (Some (ObjStruct
      {| struct_node := {| type := "StructDeclaration";
                           start := 0; end_ := 9 |};
         struct_name := {| name := "A" |};
         struct_body := None |})).
Proof.
  apply (struct_name_is_first_identifier 1 2 RuleStructDeclaration
           (mkToken (T_Other 1) "struct" 0 5)
           (mkToken T_Identifier "B" 9 9)
           (mkToken T_Identifier "A" 7 7)
           [TerminalNode 2 (mkToken (T_Other 1) "struct" 0 5)]
           [TerminalNode 4 (mkToken T_Identifier "B" 9 9)]);
    reflexivity.
Defined.
